(** * Urban fire spread model

    A shallow embedding of [urban-fire-prediction/backend/fire_model.py]
    (class [UrbanFireModel]) and the properties its specification states.

    Modelling choices.
    - A Python [float] is modelled by a real number ([R]): the arithmetic is
      the exact arithmetic that the double-precision code approximates.
      Signed zeros, infinities, NaN and the rounding error of each operation
      are outside the model.  The properties are stated and proved in this
      model.  Module [Binary64] repeats the formulas that need no [libm] on
      binary64 floats, and the values used as examples are recomputed there.
    - A Python [int] ([time_steps], [step], the loop index) is a [Z], injected
      into [R] by [IZR] where Python promotes it to a float.
    - Python exceptions are an error monad: a function returns [Ok v] or
      [Err e].  Three exceptions can arise in this module:
      [ZeroDivisionError] (true division by zero), [ValueError] ([math.asin]
      outside [-1, 1]) and [TypeError] ([round] applied to the complex number
      that [**] produces for a negative base and a fractional exponent).
    - A [for] loop that appends to a list is a fold in the error monad whose
      state is the list built so far. *)

From Stdlib Require Import String Reals Lra Lia ZArith List Psatz Floats.
Import ListNotations.
Local Open Scope R_scope.

(* ================================================================= *)
(** ** The Python runtime pieces the model uses *)

Module Py.

Inductive exn : Set :=
| ZeroDivisionError
| TypeError
| ValueError.

Inductive result (A : Type) : Type :=
| Ok (a : A)
| Err (e : exn).

Arguments Ok {A} a.
Arguments Err {A} e.

Definition bind {A B : Type} (m : result A) (k : A -> result B) : result B :=
  match m with
  | Ok a => k a
  | Err e => Err e
  end.

(** [x / y] on numbers: true division, which raises on a zero divisor. *)
Definition truediv (x y : R) : result R :=
  if Req_dec_T y 0 then Err ZeroDivisionError else Ok (x / y).

(** Rounding of a real to the nearest integer, ties to the even one: the
    rule [round] applies to the decimal expansion of its argument. *)
Definition round_half_even (x : R) : Z :=
  let f := Int_part x in
  if Rlt_dec (x - IZR f) (1 / 2) then f
  else if Rlt_dec (1 / 2) (x - IZR f) then (f + 1)%Z
  else if Z.even f then f else (f + 1)%Z.

(** [round(x, ndigits)] for [ndigits >= 0]. *)
Definition round (x : R) (ndigits : nat) : R :=
  IZR (round_half_even (x * 10 ^ ndigits)) / 10 ^ ndigits.

(** [y] is a whole number. *)
Definition integral (y : R) : {IZR (Int_part y) = y} + {IZR (Int_part y) <> y} :=
  Req_dec_T (IZR (Int_part y)) y.

(** [x ** y] on floats.  A positive base gives [exp (y * ln x)]; a zero base
    gives 0 for a positive exponent, 1 for a zero exponent, and raises for a
    negative one; a negative base gives a real only for a whole exponent.
    For a negative base and a fractional exponent Python returns a complex
    number, which every later [*] and [/] of [calculate_spread_rate] carries
    along until [round] rejects it with [TypeError]; the model has no complex
    values and raises that [TypeError] here. *)
Definition pow (x y : R) : result R :=
  if Rlt_dec 0 x then Ok (Rpower x y)
  else if Req_dec_T x 0 then
         if Rlt_dec 0 y then Ok 0
         else if Req_dec_T y 0 then Ok 1
              else Err ZeroDivisionError
       else if integral y then Ok (powerRZ x (Int_part y))
            else Err TypeError.

(** [range(a, b)]. *)
Definition range (a b : Z) : list Z :=
  map (fun k => (a + Z.of_nat k)%Z) (seq 0 (Z.to_nat (b - a))).

(** [for x in xs: body], where the body updates a state [s] and may raise. *)
Fixpoint for_each {A S : Type} (xs : list A) (body : A -> S -> result S)
         (s : S) : result S :=
  match xs with
  | [] => Ok s
  | x :: xs' => bind (body x s) (for_each xs' body)
  end.

(** The functions of Python's [math] module the model calls. *)
Module math.

Definition pi : R := PI.

Definition radians (x : R) : R := x * (PI / 180).

Definition degrees (x : R) : R := x * (180 / PI).

Definition sin (x : R) : R := Rtrigo_def.sin x.

Definition cos (x : R) : R := Rtrigo_def.cos x.

(** [math.asin] raises [ValueError] outside [-1, 1]. *)
Definition asin (x : R) : result R :=
  if Rlt_dec x (-1) then Err ValueError
  else if Rlt_dec 1 x then Err ValueError
  else Ok (Ratan.asin x).

(** [math.atan2(y, x)]: the angle of the point [(x, y)], in [(-pi, pi]];
    [atan2(0, 0)] is 0. *)
Definition atan2 (y x : R) : R :=
  if Rlt_dec 0 x then atan (y / x)
  else if Rlt_dec x 0 then
         if Rlt_dec y 0 then atan (y / x) - PI else atan (y / x) + PI
       else if Rlt_dec 0 y then PI / 2
            else if Rlt_dec y 0 then - (PI / 2)
                 else 0.

End math.

End Py.

Import Py.

Declare Scope py_scope.
Delimit Scope py_scope with py.
Notation "x <- m ;; k" := (bind m (fun x => k))
  (at level 61, m at next level, right associativity) : py_scope.
Notation "' pat <- m ;; k" := (bind m (fun x => match x with pat => k end))
  (at level 61, pat pattern, m at next level, right associativity) : py_scope.
Local Open Scope py_scope.

(* ================================================================= *)
(** ** The data the simulation returns *)

(** [{'lat': ..., 'lon': ...}] *)
Record Point : Type := mkPoint {
  lat : R;
  lon : R
}.

(** One entry of ['zones']. *)
Record FireZone : Type := mkFireZone {
  step : Z;
  time : R;
  distance : R;
  intensity : R;
  perimeter : list Point
}.

(** The ['parameters'] entry. *)
Record Parameters : Type := mkParameters {
  baseWind : R;
  urbanWind : R;
  spreadRate : R;
  buildingDensity : R;
  timeSteps : Z;
  timeInterval : R
}.

(** The ['summary'] entry. *)
Record Summary : Type := mkSummary {
  totalTime : R;
  maxDistance : R;
  affectedArea : R
}.

(** The dictionary [simulate] returns. *)
Record SimulationResult : Type := mkSimulationResult {
  origin : Point;
  parameters : Parameters;
  zones : list FireZone;
  summary : Summary
}.

(* ================================================================= *)
(** ** class UrbanFireModel *)

Module UrbanFireModel.

(** The attributes [__init__] sets. *)
Definition CFD_CONSTANT : R := 0.22.
Definition FUEL_ENERGY : R := 3000.
Definition PACKING_RATIO : R := 0.8.
Definition WIND_COEFFICIENT : R := 0.4.
Definition WIND_EXPONENT : R := 0.02526.
Definition FUEL_MOISTURE : R := 0.035.
Definition FUEL_DENSITY : R := 780.
Definition FUEL_DEPTH : R := 2.

(** Default arguments. *)
Definition default_building_height : R := 20.
Definition default_street_width : R := 15.
Definition default_wind_speed : R := 15.
Definition default_building_density : R := 40.
Definition default_time_steps : Z := 10.
Definition default_time_interval : R := 5.

Definition calculate_urban_wind (base_wind_speed building_height street_width : R)
  : result R :=
  aspect_ratio <- truediv building_height street_width ;;
  let urban_wind := base_wind_speed * (1 + CFD_CONSTANT * aspect_ratio) in
  Ok (round urban_wind 2).

Definition calculate_spread_rate (wind_speed building_density : R) : result R :=
  let wind_ms := wind_speed / 3.6 in
  p <- pow wind_ms WIND_EXPONENT ;;
  let numerator := FUEL_ENERGY * PACKING_RATIO * (1 + (WIND_COEFFICIENT * p)) in
  let denominator := FUEL_MOISTURE * FUEL_DEPTH * FUEL_DENSITY in
  let density_factor := 1 - (building_density / 100) in
  q <- truediv numerator denominator ;;
  let spread_rate := q * density_factor in
  Ok (round spread_rate 3).

Definition calculate_spread_direction
           (origin_lat origin_lon angle_deg distance_m : R) : result (R * R) :=
  let R := 6371000 in
  let lat1 := math.radians origin_lat in
  let lon1 := math.radians origin_lon in
  let angle_rad := math.radians angle_deg in
  lat2 <- math.asin
            (math.sin lat1 * math.cos (distance_m / R) +
             math.cos lat1 * math.sin (distance_m / R) * math.cos angle_rad) ;;
  let lon2 := lon1 + math.atan2
                       (math.sin angle_rad * math.sin (distance_m / R) * math.cos lat1)
                       (math.cos (distance_m / R) - math.sin lat1 * math.sin lat2) in
  Ok (math.degrees lat2, math.degrees lon2).

(** The body of the inner loop: one perimeter point. *)
Definition perimeter_step (origin_lat origin_lon distance_m : R)
           (num_directions : Z) (i : Z) (perimeter_points : list Point)
  : result (list Point) :=
  a <- truediv 360 (IZR num_directions) ;;
  let angle := a * IZR i in
  ' (new_lat, new_lon) <-
    calculate_spread_direction origin_lat origin_lon angle distance_m ;;
  Ok (perimeter_points ++ [ {| lat := new_lat; lon := new_lon |} ]).

(** The body of the outer loop: one fire zone. *)
Definition zone_step (origin_lat origin_lon spread_rate : R) (time_steps : Z)
           (time_interval : R) (step : Z) (fire_zones : list FireZone)
  : result (list FireZone) :=
  let distance_m := spread_rate * time_interval * IZR step in
  q <- truediv (IZR step) (IZR time_steps) ;;
  let intensity := 1 - q * 0.5 in
  let num_directions := 16%Z in
  perimeter_points <-
    for_each (range 0 num_directions)
             (perimeter_step origin_lat origin_lon distance_m num_directions) [] ;;
  Ok (fire_zones ++
        [ {| step := step;
             time := IZR step * time_interval;
             distance := round distance_m 2;
             intensity := round intensity 3;
             perimeter := perimeter_points |} ]).

Definition simulate (origin_lat origin_lon wind_speed building_density : R)
           (time_steps : Z) (time_interval : R) : result SimulationResult :=
  urban_wind <- calculate_urban_wind wind_speed default_building_height
                                     default_street_width ;;
  spread_rate <- calculate_spread_rate urban_wind building_density ;;
  fire_zones <-
    for_each (range 1 (time_steps + 1))
             (zone_step origin_lat origin_lon spread_rate time_steps time_interval)
             [] ;;
  sq <- pow (spread_rate * time_interval * IZR time_steps) 2 ;;
  Ok {| origin := {| lat := origin_lat; lon := origin_lon |};
        parameters := {| baseWind := wind_speed;
                         urbanWind := urban_wind;
                         spreadRate := spread_rate;
                         buildingDensity := building_density;
                         timeSteps := time_steps;
                         timeInterval := time_interval |};
        zones := fire_zones;
        summary := {| totalTime := IZR time_steps * time_interval;
                      maxDistance :=
                        round (spread_rate * time_interval * IZR time_steps) 2;
                      affectedArea := round (math.pi * sq) 2 |} |}.

End UrbanFireModel.

Import UrbanFireModel.

(* ================================================================= *)
(** ** Closed forms used to state the results *)

(** The great-circle destination point: what [calculate_spread_direction]
    computes once [math.asin] has accepted its argument. *)
Definition destination (origin_lat origin_lon angle_deg distance_m : R) : R * R :=
  let lat1 := math.radians origin_lat in
  let lon1 := math.radians origin_lon in
  let angle_rad := math.radians angle_deg in
  let lat2 := Ratan.asin
                (sin lat1 * cos (distance_m / 6371000) +
                 cos lat1 * sin (distance_m / 6371000) * cos angle_rad) in
  let lon2 := lon1 + math.atan2
                       (sin angle_rad * sin (distance_m / 6371000) * cos lat1)
                       (cos (distance_m / 6371000) - sin lat1 * sin lat2) in
  (math.degrees lat2, math.degrees lon2).

(** The perimeter point in direction number [i]. *)
Definition point_of (origin_lat origin_lon distance_m : R) (i : Z) : Point :=
  let '(new_lat, new_lon) :=
    destination origin_lat origin_lon (360 / 16 * IZR i) distance_m in
  {| lat := new_lat; lon := new_lon |}.

(** The zone the outer loop appends at step [k]. *)
Definition zone_of (origin_lat origin_lon spread_rate : R) (time_steps : Z)
           (time_interval : R) (k : Z) : FireZone :=
  {| step := k;
     time := IZR k * time_interval;
     distance := round (spread_rate * time_interval * IZR k) 2;
     intensity := round (1 - IZR k / IZR time_steps * 0.5) 3;
     perimeter := map (point_of origin_lat origin_lon
                                (spread_rate * time_interval * IZR k))
                      (range 0 16) |}.

(** The urban wind as the specification words it. *)
Definition spec_urban_wind (b h w : R) : R :=
  round (b * (1 + 0.22 * (h / w))) 2.

(** Real exponentiation of a non-negative base, with [0 ^ e = 0]. *)
Definition spec_power (x e : R) : R :=
  if Req_dec_T x 0 then 0 else Rpower x e.

(** The spread rate as the specification words it. *)
Definition spec_spread_rate (w d : R) : R :=
  round (((3000 * 0.8 * (1 + 0.4 * spec_power (w / 3.6) 0.02526)) /
          (0.035 * 2 * 780)) * (1 - d / 100)) 3.


(** The dictionary a run returns when nothing raises. *)
Definition result_of (origin_lat origin_lon wind_speed building_density : R)
           (time_steps : Z) (time_interval : R) : SimulationResult :=
  let urban_wind :=
    spec_urban_wind wind_speed default_building_height default_street_width in
  let spread_rate := spec_spread_rate urban_wind building_density in
  {| origin := {| lat := origin_lat; lon := origin_lon |};
     parameters := {| baseWind := wind_speed;
                      urbanWind := urban_wind;
                      spreadRate := spread_rate;
                      buildingDensity := building_density;
                      timeSteps := time_steps;
                      timeInterval := time_interval |};
     zones := map (zone_of origin_lat origin_lon spread_rate time_steps
                           time_interval)
                  (range 1 (time_steps + 1));
     summary :=
       {| totalTime := IZR time_steps * time_interval;
          maxDistance := round (spread_rate * time_interval * IZR time_steps) 2;
          affectedArea :=
            round (PI * ((spread_rate * time_interval * IZR time_steps) *
                         (spread_rate * time_interval * IZR time_steps))) 2 |} |}.

(* ================================================================= *)
(** ** Distances on the sphere *)



(* ================================================================= *)
(** ** The rational formulas in double precision

    The formulas of the module that use only [+ - * /] and [round] (the
    street-canyon wind, the intensity, and the spread rate at the two wind
    speeds where the power is exact) are repeated here on binary64 floats,
    whose operations the kernel evaluates as the processor does.  They serve
    to check, at chosen inputs, that the values found in real arithmetic are
    the ones the running code returns. *)

Module Binary64.

Local Open Scope float_scope.

(** The float of an integer below [2^53] in magnitude (exact). *)
Definition of_Z (k : Z) : float :=
  SF2Prim (binary_normalize prec emax k 0 false).

(** The integer nearest to [n / d], ties to even, for [d > 0]. *)
Definition nearest_even (n d : Z) : Z :=
  let q := (n / d)%Z in
  let r := (n mod d)%Z in
  match (2 * r ?= d)%Z with
  | Lt => q
  | Gt => (q + 1)%Z
  | Eq => if Z.even q then q else (q + 1)%Z
  end.

(** [round(x, ndigits)] on a float: the exact binary value of [x] is rounded
    to [ndigits] decimals, ties to even, and the decimal obtained is
    converted back to the nearest float.  The conversion is exact as long as
    [x * 10^ndigits] stays below [2^53] in magnitude, which covers the
    magnitudes of this program. *)
Definition round (x : float) (ndigits : nat) : float :=
  match Prim2SF x with
  | S754_finite s m e =>
      let num := (Zpos m * 10 ^ Z.of_nat ndigits)%Z in
      let k := if (0 <=? e)%Z then (num * 2 ^ e)%Z
               else nearest_even num (2 ^ (- e)) in
      let y := of_Z k / of_Z (10 ^ Z.of_nat ndigits) in
      if s then - y else y
  | _ => x
  end.

#[warnings="-inexact-float"]
Definition calculate_urban_wind (base_wind_speed building_height street_width : float)
  : Py.result float :=
  if street_width =? 0 then Py.Err Py.ZeroDivisionError
  else
    let aspect_ratio := building_height / street_width in
    let urban_wind := base_wind_speed * (1 + 0.22 * aspect_ratio) in
    Py.Ok (round urban_wind 2).

(** The intensity [simulate] stores for [step] out of [time_steps]. *)
Definition intensity (step time_steps : Z) : Py.result float :=
  if (time_steps =? 0)%Z then Py.Err Py.ZeroDivisionError
  else Py.Ok (round (1 - (of_Z step / of_Z time_steps) * 0.5) 3).

(** [x ** y] for the two bases at which the result is fixed by IEEE 754 and
    needs no approximation: 1 to any power is 1, and 0 to a positive power is
    0.  Every other base is left out ([None]). *)
Definition pow_exact (x y : float) : option float :=
  if x =? 1 then Some 1
  else if andb (x =? 0) (0 <? y) then Some 0
  else None.

#[warnings="-inexact-float"]
Definition calculate_spread_rate (wind_speed building_density : float)
  : option float :=
  let wind_ms := wind_speed / 3.6 in
  match pow_exact wind_ms 0.02526 with
  | Some p =>
      let numerator := 3000 * 0.8 * (1 + (0.4 * p)) in
      let denominator := 0.035 * 2 * 780 in
      let density_factor := 1 - (building_density / 100) in
      let spread_rate := (numerator / denominator) * density_factor in
      Some (round spread_rate 3)
  | None => None
  end.

(** The intensities of steps [k] and [k + 1] out of [n] decrease strictly. *)
Definition decreasing_at (n k : Z) : bool :=
  match intensity (k + 1) n, intensity k n with
  | Py.Ok b, Py.Ok a => b <? a
  | _, _ => false
  end.

(** The intensities of a run of [n] steps decrease strictly. *)
Definition strictly_decreasing (n : Z) : bool :=
  forallb (decreasing_at n) (Py.range 1 n).

(** The first intensity of a run of [n] steps is below 1.0. *)
Definition first_below_one (n : Z) : bool :=
  match intensity 1 n with
  | Py.Ok a => a <? 1
  | Py.Err _ => false
  end.

End Binary64.

(* ================================================================= *)
(** ** JSON values and the Python operations applied to them

    The web layer ([app.py], [weather_api.py]) handles values decoded from
    JSON, whose type is only known at run time.  A JSON value is kept with
    its Python type; each operation of the source is defined on every value
    and raises what Python raises on the types it does not accept. *)

Module Json.

#[warnings="-register-all"]
Inductive json : Type :=
| JNull
| JBool (b : bool)
| JInt (z : Z)
| JFloat (r : R)
| JStr (s : string)
| JList (l : list json)
| JDict (d : list (string * json)).

(** The exceptions of the web layer: those of the model, those of the
    dictionary and list operations, [requests.RequestException] (with its
    subclasses [HTTPError] and [JSONDecodeError]) and the exception of
    werkzeug for a request body that cannot be read as JSON. *)
Inductive exception : Set :=
| Builtin (e : Py.exn)
| KeyError
| IndexError
| AttributeError
| RequestException
| HTTPException.

Inductive outcome (A : Type) : Type :=
| Return (a : A)
| Raise (e : exception).

Arguments Return {A} a.
Arguments Raise {A} e.

Definition and_then {A B : Type} (m : outcome A) (k : A -> outcome B) : outcome B :=
  match m with
  | Return a => k a
  | Raise e => Raise e
  end.

(** A result of the model seen from the web layer. *)
Definition lift {A : Type} (m : Py.result A) : outcome A :=
  match m with
  | Py.Ok a => Return a
  | Py.Err e => Raise (Builtin e)
  end.

(** The entry of key [k] in a dictionary. *)
Fixpoint lookup (d : list (string * json)) (k : string) : option json :=
  match d with
  | [] => None
  | (k', v) :: d' => if String.eqb k' k then Some v else lookup d' k
  end.

(** [v[k]] for a string [k]. *)
Definition getitem (v : json) (k : string) : outcome json :=
  match v with
  | JDict d => match lookup d k with
               | Some x => Return x
               | None => Raise KeyError
               end
  | _ => Raise (Builtin Py.TypeError)
  end.

(** [v[0]].  The keys of a dictionary decoded from JSON are strings, so the
    key [0] is never present. *)
Definition getitem0 (v : json) : outcome json :=
  match v with
  | JList (x :: _) => Return x
  | JList [] => Raise IndexError
  | JStr (String c _) => Return (JStr (String c EmptyString))
  | JStr EmptyString => Raise IndexError
  | JDict _ => Raise KeyError
  | _ => Raise (Builtin Py.TypeError)
  end.

(** The entry of key [k] if there is one, and [default] otherwise. *)
Definition value_or (d : list (string * json)) (k : string) (default : json)
  : json :=
  match lookup d k with
  | Some x => x
  | None => default
  end.

(** [v.get(k, default)]. *)
Definition get (v : json) (k : string) (default : json) : outcome json :=
  match v with
  | JDict d => Return (value_or d k default)
  | _ => Raise AttributeError
  end.

(** [v is None]. *)
Definition is_None (v : json) : bool :=
  match v with
  | JNull => true
  | _ => false
  end.

(** [round(v, ndigits)]: a float is rounded, an integer or a boolean is
    returned as an integer. *)
Definition round_json (v : json) (ndigits : nat) : outcome json :=
  match v with
  | JFloat r => Return (JFloat (Py.round r ndigits))
  | JInt z => Return (JInt z)
  | JBool b => Return (JInt (if b then 1 else 0))
  | _ => Raise (Builtin Py.TypeError)
  end.

(** The value of [v] as an operand of float arithmetic ([v * 3.6], [v / 100],
    [math.radians(v)]): numbers and booleans are accepted. *)
Definition number (v : json) : outcome R :=
  match v with
  | JFloat r => Return r
  | JInt z => Return (IZR z)
  | JBool b => Return (if b then 1 else 0)
  | _ => Raise (Builtin Py.TypeError)
  end.

(** The value of [v] as a bound of [range]: [v + 1] must be an integer. *)
Definition integer (v : json) : outcome Z :=
  match v with
  | JInt z => Return z
  | JBool b => Return (if b then 1 else 0)%Z
  | _ => Raise (Builtin Py.TypeError)
  end.

End Json.

Import Json.

Declare Scope web_scope.
Delimit Scope web_scope with web.
Notation "x <~ m ;; k" := (and_then m (fun x => k))
  (at level 61, m at next level, right associativity) : web_scope.

(* ================================================================= *)
(** ** class WeatherAPI

    The network, the random generator, the clock and the parser of [float]
    are the surroundings of the code; they are gathered in a [World] that the
    functions receive.  What a function does to the outside (a request, a
    printed line) is returned as a list of events next to its result. *)

Module WeatherAPI.

Local Open Scope web_scope.

(** [random.uniform] and [random.randint].  The five draws of one mock
    report have different arguments, so a function of the arguments is
    enough for one report. *)
Record Random : Type := {
  uniform : R -> R -> R;
  randint : Z -> Z -> Z
}.

(** What the documentation of [random] promises. *)
Definition draws_in_range (rnd : Random) : Prop :=
  (forall a b, a <= b -> a <= uniform rnd a b <= b) /\
  (forall a b, (a <= b)%Z -> (a <= randint rnd a b <= b)%Z).

(** The [params] dictionary of the request. *)
Record Params : Type := {
  param_lat : R;
  param_lon : R;
  param_appid : string;
  param_units : string
}.

(** The outcome of [requests.get]: no reply (connection error, timeout), or a
    reply with a status code and a body that is JSON or not. *)
Inductive http_reply : Type :=
| NoReply
| Reply (status_code : Z) (body : option json).

Record World : Type := {
  random : Random;
  now_isoformat : string;
  requests_get : string -> Params -> Z -> http_reply;
  float_of_string : string -> option R
}.

Inductive event : Type :=
| Requested (url : string) (params : Params) (timeout : Z)
| Printed_error.

(** The dictionary [get_weather] returns. *)
Record Weather : Type := {
  temperature : json;
  humidity : json;
  windSpeed : json;
  windDirection : json;
  description : json;
  icon : json;
  pressure : json;
  location : json;
  timestamp : string;
  source : string
}.

Definition base_url : string := "https://api.openweathermap.org/data/2.5/weather".

(** [__init__]: the key given, or else the environment variable, or else the
    empty string. *)
Definition init (api_key : option string) (environ : option string) : string :=
  let from_environ := match environ with
                      | Some k => k
                      | None => EmptyString
                      end in
  match api_key with
  | Some k => if String.eqb k EmptyString then from_environ else k
  | None => from_environ
  end.

Definition _get_mock_weather (world : World) (lat lon : R) : Weather :=
  {| temperature := JFloat (Py.round (uniform (random world) 15 30) 1);
     humidity := JInt (randint (random world) 30 70);
     windSpeed := JFloat (Py.round (uniform (random world) 10 25) 1);
     windDirection := JInt (randint (random world) 0 360);
     description := JStr "clear sky";
     icon := JStr "01d";
     pressure := JInt (randint (random world) 1000 1020);
     location := JStr "Los Angeles";
     timestamp := now_isoformat world;
     source := "Mock Data (Add API key for real data)" |}.

(** [requests.get], [raise_for_status] and [response.json]: each of the three
    fails with a [RequestException]. *)
Definition fetch (world : World) (params : Params) : outcome json :=
  match requests_get world base_url params 5 with
  | NoReply => Raise RequestException
  | Reply status_code body =>
      if andb (400 <=? status_code)%Z (status_code <? 600)%Z
      then Raise RequestException
      else match body with
           | Some data => Return data
           | None => Raise RequestException
           end
  end.

(** The dictionary built from the reply, entry after entry. *)
Definition report (world : World) (data : json) : outcome Weather :=
  main <~ getitem data "main" ;;
  temp <~ getitem main "temp" ;;
  temperature <~ round_json temp 1 ;;
  main <~ getitem data "main" ;;
  humidity <~ getitem main "humidity" ;;
  wind <~ getitem data "wind" ;;
  speed <~ getitem wind "speed" ;;
  kmh <~ number speed ;;
  let windSpeed := JFloat (Py.round (kmh * 3.6) 1) in
  wind <~ getitem data "wind" ;;
  windDirection <~ get wind "deg" (JInt 0) ;;
  weather <~ getitem data "weather" ;;
  first <~ getitem0 weather ;;
  description <~ getitem first "description" ;;
  weather <~ getitem data "weather" ;;
  first <~ getitem0 weather ;;
  icon <~ getitem first "icon" ;;
  main <~ getitem data "main" ;;
  pressure <~ getitem main "pressure" ;;
  location <~ getitem data "name" ;;
  Return {| temperature := temperature;
            humidity := humidity;
            windSpeed := windSpeed;
            windDirection := windDirection;
            description := description;
            icon := icon;
            pressure := pressure;
            location := location;
            timestamp := now_isoformat world;
            source := "OpenWeatherMap API" |}.

Definition get_weather (api_key : string) (world : World) (lat lon : R)
  : outcome Weather * list event :=
  if (String.eqb api_key EmptyString ||
      String.eqb api_key "YOUR_OPENWEATHER_KEY_HERE")%bool
  then (Return (_get_mock_weather world lat lon), [])
  else
    let params := {| param_lat := lat;
                     param_lon := lon;
                     param_appid := api_key;
                     param_units := "metric" |} in
    match fetch world params with
    | Raise RequestException =>
        (Return (_get_mock_weather world lat lon),
         [Requested base_url params 5; Printed_error])
    | Raise e => (Raise e, [Requested base_url params 5])
    | Return data => (report world data, [Requested base_url params 5])
    end.

(** Two worlds used as examples: one without network, whose random
    generator returns the lower bound of the range asked for, and one whose
    server answers every request with status 200 and the given JSON. *)
Definition offline_world : World :=
  {| random := {| uniform := fun a _ => a; randint := fun a _ => a |};
     now_isoformat := "2024-01-01T00:00:00";
     requests_get := fun _ _ _ => NoReply;
     float_of_string := fun _ => None |}.





Definition answering_world (data : json) : World :=
  {| random := {| uniform := fun a _ => a; randint := fun a _ => a |};
     now_isoformat := "2024-01-01T00:00:00";
     requests_get := fun _ _ _ => Reply 200 (Some data);
     float_of_string := fun _ => None |}.

End WeatherAPI.

(* ================================================================= *)
(** ** The routes of app.py *)

Module App.

Local Open Scope web_scope.

(** The text of an error entry: a literal of the source, or [str(e)] for the
    exception caught. *)
Inductive error_text : Type :=
| Literal (s : string)
| Str (e : exception).

(** [jsonify({'success': ..., 'data' or 'error': ...}), status]. *)
Record Response (A : Type) : Type := {
  status : Z;
  success : bool;
  content : A + error_text
}.

Arguments status {A} r.
Arguments success {A} r.
Arguments content {A} r.

(** The dictionary [simulate] returns when its arguments are values decoded
    from JSON: the arguments are stored as they came, the rest is
    computed. *)
Record ApiResult : Type := {
  api_origin : json * json;
  api_baseWind : json;
  api_urbanWind : R;
  api_spreadRate : R;
  api_buildingDensity : json;
  api_timeSteps : json;
  api_timeInterval : R;
  api_zones : list FireZone;
  api_summary : Summary
}.

Definition api_result (lat lon wind_speed building_density time_steps : json)
           (r : SimulationResult) : ApiResult :=
  {| api_origin := (lat, lon);
     api_baseWind := wind_speed;
     api_urbanWind := urbanWind (parameters r);
     api_spreadRate := spreadRate (parameters r);
     api_buildingDensity := building_density;
     api_timeSteps := time_steps;
     api_timeInterval := timeInterval (parameters r);
     api_zones := zones r;
     api_summary := summary r |}.

(** [fire_model.simulate(origin_lat=lat, ...)] on values decoded from JSON.
    The wind speed and the density are operands of float arithmetic, the
    step count is a bound of [range]: a value of another type raises
    [TypeError].  The coordinates are only used inside the loop, by
    [math.radians]: with no iteration they are stored in the result without
    being looked at, and the zones and the summary do not depend on them. *)
Definition simulate_call (lat lon wind_speed building_density time_steps : json)
  : outcome ApiResult :=
  w <~ number wind_speed ;;
  d <~ number building_density ;;
  n <~ integer time_steps ;;
  if (0 <? n)%Z then
    origin_lat <~ number lat ;;
    origin_lon <~ number lon ;;
    r <~ lift (simulate origin_lat origin_lon w d n default_time_interval) ;;
    Return (api_result lat lon wind_speed building_density time_steps r)
  else
    r <~ lift (simulate 0 0 w d n default_time_interval) ;;
    Return (api_result lat lon wind_speed building_density time_steps r).

(** [POST /api/simulate]; [request_json] is what [request.json] gives. *)
Definition simulate_fire (request_json : outcome json) : Response ApiResult :=
  match
    (data <~ request_json ;;
     lat <~ get data "lat" JNull ;;
     lon <~ get data "lon" JNull ;;
     wind_speed <~ get data "windSpeed" (JInt 15) ;;
     building_density <~ get data "buildingDensity" (JInt 40) ;;
     time_steps <~ get data "timeSteps" (JInt 10) ;;
     if (is_None lat || is_None lon)%bool then
       Return {| status := 400;
                 success := false;
                 content := inr (Literal "Missing lat or lon") |}
     else
       result <~ simulate_call lat lon wind_speed building_density time_steps ;;
       Return {| status := 200; success := true; content := inl result |})
  with
  | Return response => response
  | Raise e => {| status := 500; success := false; content := inr (Str e) |}
  end.

(** [float(request.args.get(name, default))]. *)
Definition float_arg (world : WeatherAPI.World) (args : string -> option string)
           (name : string) (default : R) : outcome R :=
  match args name with
  | None => Return default
  | Some text =>
      match WeatherAPI.float_of_string world text with
      | Some x => Return x
      | None => Raise (Builtin Py.ValueError)
      end
  end.

(** [GET /api/weather]; [api_key] is the key of the global [WeatherAPI]
    object and [args] the query string. *)
Definition get_weather (api_key : string) (world : WeatherAPI.World)
           (args : string -> option string)
  : Response WeatherAPI.Weather * list WeatherAPI.event :=
  match float_arg world args "lat" 34.0522 with
  | Raise e => ({| status := 500; success := false; content := inr (Str e) |}, [])
  | Return lat =>
      match float_arg world args "lon" (-118.2437) with
      | Raise e =>
          ({| status := 500; success := false; content := inr (Str e) |}, [])
      | Return lon =>
          match WeatherAPI.get_weather api_key world lat lon with
          | (Return weather_data, events) =>
              ({| status := 200; success := true; content := inl weather_data |},
               events)
          | (Raise e, events) =>
              ({| status := 500; success := false; content := inr (Str e) |},
               events)
          end
      end
  end.

End App.

(* ================================================================= *)
(** ** Facts about the runtime pieces *)

Section RoundFacts.

Lemma round_half_even_bounds (x : R) :
  IZR (round_half_even x) - 1 / 2 <= x <= IZR (round_half_even x) + 1 / 2.
Proof.
  unfold round_half_even.
  destruct (base_Int_part x) as [Hlo Hhi].
  destruct (Rlt_dec (x - IZR (Int_part x)) (1 / 2)) as [Hlt | Hge].
  - lra.
  - destruct (Rlt_dec (1 / 2) (x - IZR (Int_part x))) as [Hgt | Hle].
    + rewrite plus_IZR. lra.
    + destruct (Z.even (Int_part x)); [ | rewrite plus_IZR ]; lra.
Qed.

(** The integers are at distance at least 1 from each other. *)
Lemma IZR_gap (a b : Z) : IZR a < IZR b + 1 -> (a <= b)%Z.
Proof.
  intros H.
  assert (Hlt : (a < b + 1)%Z) by (apply lt_IZR; rewrite plus_IZR; exact H).
  lia.
Qed.

Lemma round_half_even_near (x : R) (k : Z) :
  IZR k - 1 / 2 < x < IZR k + 1 / 2 -> round_half_even x = k.
Proof.
  intros [Hlo Hhi].
  destruct (round_half_even_bounds x) as [Blo Bhi].
  apply Z.le_antisymm; apply IZR_gap; lra.
Qed.

Lemma round_half_even_IZR (k : Z) : round_half_even (IZR k) = k.
Proof. apply round_half_even_near. lra. Qed.

Lemma round_half_even_mono (x y : R) :
  x <= y -> (round_half_even x <= round_half_even y)%Z.
Proof.
  intros [Hlt | Heq].
  - destruct (round_half_even_bounds x) as [Bx _].
    destruct (round_half_even_bounds y) as [_ By].
    apply IZR_gap. lra.
  - subst y. apply Z.le_refl.
Qed.


Lemma pow10_pos (n : nat) : 0 < 10 ^ n.
Proof. apply pow_lt. lra. Qed.


Lemma round_mono (x y : R) (n : nat) : x <= y -> round x n <= round y n.
Proof.
  intros Hxy. unfold round.
  pose proof (pow10_pos n) as Hp.
  apply Rmult_le_compat_r.
  - left. apply Rinv_0_lt_compat. exact Hp.
  - apply IZR_le. apply round_half_even_mono.
    apply Rmult_le_compat_r; lra.
Qed.

(** A number with at most [n] decimals is left alone. *)
Lemma round_decimal (k : Z) (n : nat) :
  round (IZR k / 10 ^ n) n = IZR k / 10 ^ n.
Proof.
  unfold round.
  pose proof (pow10_pos n) as Hp.
  replace (IZR k / 10 ^ n * 10 ^ n) with (IZR k) by (field; lra).
  rewrite round_half_even_IZR. reflexivity.
Qed.

Lemma round_IZR (k : Z) (n : nat) : round (IZR k) n = IZR k.
Proof.
  unfold round.
  pose proof (pow10_pos n) as Hp.
  replace (10 ^ n) with (IZR (10 ^ Z.of_nat n)).
  - rewrite <- mult_IZR, round_half_even_IZR, mult_IZR. field.
    rewrite <- pow_IZR. lra.
  - rewrite <- pow_IZR. reflexivity.
Qed.

Lemma round_0 (n : nat) : round 0 n = 0.
Proof. exact (round_IZR 0 n). Qed.

(** [round] returns the decimal [k / 10^n] nearest to its argument. *)
Lemma round_near (x : R) (n : nat) (k : Z) :
  IZR k - 1 / 2 < x * 10 ^ n < IZR k + 1 / 2 ->
  round x n = IZR k / 10 ^ n.
Proof.
  intros H. unfold round.
  rewrite (round_half_even_near _ k H). reflexivity.
Qed.

End RoundFacts.

(** [round_value k] closes a goal [round x n = v] where [x * 10^n] lies
    within one half of the integer [k] and [v] is [k / 10^n]. *)
Ltac round_value k :=
  rewrite (round_near _ _ k) by (simpl; lra); simpl; lra.

Section RuntimeFacts.

Lemma truediv_ok (x y : R) : y <> 0 -> truediv x y = Ok (x / y).
Proof.
  intros Hy. unfold truediv.
  destruct (Req_dec_T y 0) as [E | _]; [ contradiction | reflexivity ].
Qed.

Lemma truediv_zero (x : R) : truediv x 0 = Err ZeroDivisionError.
Proof.
  unfold truediv.
  destruct (Req_dec_T 0 0) as [_ | N]; [ reflexivity | contradiction N; reflexivity ].
Qed.

Lemma pow_positive_base (x y : R) : 0 < x -> pow x y = Ok (Rpower x y).
Proof.
  intros Hx. unfold pow.
  destruct (Rlt_dec 0 x) as [_ | N]; [ reflexivity | contradiction ].
Qed.

Lemma pow_zero_base (y : R) : 0 < y -> pow 0 y = Ok 0.
Proof.
  intros Hy. unfold pow.
  destruct (Rlt_dec 0 0) as [A | _]; [ lra | ].
  destruct (Req_dec_T 0 0) as [_ | N]; [ | contradiction N; reflexivity ].
  destruct (Rlt_dec 0 y) as [_ | N]; [ reflexivity | contradiction ].
Qed.

Lemma pow_negative_base_fractional (x y : R) :
  x < 0 -> IZR (Int_part y) <> y -> pow x y = Err TypeError.
Proof.
  intros Hx Hy. unfold pow.
  destruct (Rlt_dec 0 x) as [A | _]; [ lra | ].
  destruct (Req_dec_T x 0) as [A | _]; [ lra | ].
  destruct (integral y) as [A | _]; [ contradiction | reflexivity ].
Qed.

Lemma Int_part_IZR (k : Z) : Int_part (IZR k) = k.
Proof. symmetry. apply Int_part_spec. lra. Qed.

(** [x ** 2] is the square, whatever the sign of [x]. *)
Lemma pow_2 (x : R) : pow x 2 = Ok (x * x).
Proof.
  unfold pow.
  destruct (Rlt_dec 0 x) as [Hpos | Hnpos].
  - f_equal. replace 2 with (INR 2) by (simpl; lra).
    rewrite Rpower_pow by exact Hpos. simpl. ring.
  - destruct (Req_dec_T x 0) as [Hz | Hnz].
    + destruct (Rlt_dec 0 2) as [_ | N]; [ | lra ].
      subst x. f_equal. ring.
    + destruct (integral 2) as [_ | N].
      * rewrite (Int_part_IZR 2). f_equal. simpl. ring.
      * contradiction N. rewrite (Int_part_IZR 2). reflexivity.
Qed.

Lemma WIND_EXPONENT_pos : 0 < WIND_EXPONENT.
Proof. unfold WIND_EXPONENT. lra. Qed.

Lemma WIND_EXPONENT_fractional : IZR (Int_part WIND_EXPONENT) <> WIND_EXPONENT.
Proof.
  replace (Int_part WIND_EXPONENT) with 0%Z.
  - unfold WIND_EXPONENT. lra.
  - apply Int_part_spec. unfold WIND_EXPONENT. lra.
Qed.

(** The power of the wind term: defined and non-negative for a wind that is
    not negative. *)
Lemma pow_wind (x : R) :
  0 <= x -> pow x WIND_EXPONENT = Ok (spec_power x 0.02526).
Proof.
  intros [Hpos | Hz]; unfold spec_power.
  - rewrite pow_positive_base by exact Hpos.
    destruct (Req_dec_T x 0) as [E | _]; [ lra | reflexivity ].
  - subst x. rewrite pow_zero_base by exact WIND_EXPONENT_pos.
    destruct (Req_dec_T 0 0) as [_ | N]; [ reflexivity | contradiction N; reflexivity ].
Qed.

Lemma spec_power_nonneg (x e : R) : 0 <= spec_power x e.
Proof.
  unfold spec_power. destruct (Req_dec_T x 0) as [_ | _]; [ lra | ].
  unfold Rpower. left. apply exp_pos.
Qed.

Lemma spec_power_0 (e : R) : spec_power 0 e = 0.
Proof.
  unfold spec_power.
  destruct (Req_dec_T 0 0) as [_ | N]; [ reflexivity | contradiction N; reflexivity ].
Qed.


(** A loop whose body appends one element per iteration builds a [map]. *)
Lemma for_each_append {A B : Type} (f : A -> B) (body : A -> list B -> result (list B))
      (xs : list A) :
  (forall x s, In x xs -> body x s = Ok (s ++ [f x])) ->
  forall s, for_each xs body s = Ok (s ++ map f xs).
Proof.
  induction xs as [ | x xs IH]; intros Hbody s; simpl.
  - rewrite app_nil_r. reflexivity.
  - rewrite (Hbody x s) by (left; reflexivity). simpl.
    rewrite IH by (intros y t Hy; apply Hbody; right; exact Hy).
    rewrite <- app_assoc. reflexivity.
Qed.


Lemma range_empty (a b : Z) : (b <= a)%Z -> range a b = [].
Proof.
  intros H. unfold range.
  replace (Z.to_nat (b - a)) with 0%nat by lia. reflexivity.
Qed.

Lemma range_In (a b k : Z) : In k (range a b) <-> (a <= k < b)%Z.
Proof.
  unfold range. rewrite in_map_iff. split.
  - intros [i [Hi Hin]]. apply in_seq in Hin. lia.
  - intros H. exists (Z.to_nat (k - a)). split; [ lia | ].
    apply in_seq. lia.
Qed.


End RuntimeFacts.

(* ================================================================= *)
(** ** The three formulas *)

Section Formulas.

(** The argument handed to [math.asin] is a sine of the destination latitude:
    it never leaves [-1, 1], so [math.asin] does not raise. *)
Lemma asin_argument_bound (a t b : R) :
  -1 <= sin a * cos t + cos a * sin t * cos b <= 1.
Proof.
  pose proof (sin2_cos2 a) as Ha. pose proof (sin2_cos2 t) as Ht.
  pose proof (COS_bound b) as [Hb1 Hb2].
  unfold Rsqr in Ha, Ht.
  set (s := sin a) in *. set (c := cos a) in *.
  set (v := sin t) in *. set (u := cos t) in *.
  set (w := cos b) in *.
  assert (Hw : w * w <= 1) by nra.
  assert (Hvw : v * v * (w * w) <= v * v) by nra.
  assert (Hid : (s * u + c * v * w) * (s * u + c * v * w) +
                (s * v * w - c * u) * (s * v * w - c * u) =
                (s * s + c * c) * (u * u + v * v * (w * w))) by ring.
  rewrite Ha, Rmult_1_l in Hid.
  pose proof (Rle_0_sqr (s * v * w - c * u)) as Hy. unfold Rsqr in Hy.
  assert (Hsq : (s * u + c * v * w) * (s * u + c * v * w) <= 1) by lra.
  split; nra.
Qed.

Lemma calculate_spread_direction_ok (origin_lat origin_lon angle_deg distance_m : R) :
  calculate_spread_direction origin_lat origin_lon angle_deg distance_m =
  Ok (destination origin_lat origin_lon angle_deg distance_m).
Proof.
  unfold calculate_spread_direction, destination, math.asin, math.sin, math.cos.
  pose proof (asin_argument_bound (math.radians origin_lat)
                (distance_m / 6371000) (math.radians angle_deg)) as [Hlo Hhi].
  destruct (Rlt_dec _ (-1)) as [A | _]; [ lra | ].
  destruct (Rlt_dec 1 _) as [A | _]; [ lra | ].
  reflexivity.
Qed.

Lemma atan2_zero_nonneg (x : R) : 0 <= x -> math.atan2 0 x = 0.
Proof.
  intros Hx. unfold math.atan2.
  destruct (Rlt_dec 0 x) as [_ | _].
  - unfold Rdiv. rewrite Rmult_0_l. apply atan_0.
  - destruct (Rlt_dec x 0) as [A | _]; [ lra | ].
    destruct (Rlt_dec 0 0) as [A | _]; [ lra | reflexivity ].
Qed.

Lemma degrees_radians (x : R) : math.degrees (math.radians x) = x.
Proof.
  unfold math.degrees, math.radians. field. apply PI_neq0.
Qed.

Lemma radians_quarter_turn (x : R) :
  -90 <= x <= 90 -> - (PI / 2) <= math.radians x <= PI / 2.
Proof.
  intros [Hlo Hhi]. unfold math.radians.
  pose proof PI_RGT_0 as Hpi. split; nra.
Qed.

(** A zero distance leaves a point with a latitude in [-90, 90] where it is. *)
Lemma destination_zero (origin_lat origin_lon angle_deg : R) :
  -90 <= origin_lat <= 90 ->
  destination origin_lat origin_lon angle_deg 0 = (origin_lat, origin_lon).
Proof.
  intros Hlat. unfold destination.
  replace (0 / 6371000) with 0 by lra.
  rewrite sin_0, cos_0.
  replace (sin (math.radians origin_lat) * 1 +
           cos (math.radians origin_lat) * 0 * cos (math.radians angle_deg))
    with (sin (math.radians origin_lat)) by ring.
  rewrite asin_sin by (apply radians_quarter_turn; exact Hlat).
  replace (sin (math.radians angle_deg) * 0 * cos (math.radians origin_lat))
    with 0 by ring.
  rewrite atan2_zero_nonneg.
  - rewrite Rplus_0_r, !degrees_radians. reflexivity.
  - pose proof (sin2_cos2 (math.radians origin_lat)) as H. unfold Rsqr in H.
    nra.
Qed.


Lemma calculate_urban_wind_eq (b h w : R) :
  w <> 0 -> calculate_urban_wind b h w = Ok (spec_urban_wind b h w).
Proof.
  intros Hw. unfold calculate_urban_wind, spec_urban_wind, CFD_CONSTANT.
  rewrite truediv_ok by exact Hw. reflexivity.
Qed.

Lemma calculate_urban_wind_zero_width (b h : R) :
  calculate_urban_wind b h 0 = Err ZeroDivisionError.
Proof. unfold calculate_urban_wind. rewrite truediv_zero. reflexivity. Qed.

(** The street-canyon wind of a wind that is not negative is not negative. *)
Lemma spec_urban_wind_nonneg (b : R) :
  0 <= b -> 0 <= spec_urban_wind b default_building_height default_street_width.
Proof.
  intros Hb. unfold spec_urban_wind, default_building_height, default_street_width.
  rewrite <- (round_0 2). apply round_mono. nra.
Qed.

Lemma calculate_spread_rate_eq (w d : R) :
  0 <= w -> calculate_spread_rate w d = Ok (spec_spread_rate w d).
Proof.
  intros Hw. unfold calculate_spread_rate, spec_spread_rate.
  rewrite pow_wind by lra. simpl.
  rewrite truediv_ok
    by (unfold FUEL_MOISTURE, FUEL_DEPTH, FUEL_DENSITY; lra).
  reflexivity.
Qed.

Lemma calculate_spread_rate_negative_wind (w d : R) :
  w < 0 -> calculate_spread_rate w d = Err TypeError.
Proof.
  intros Hw. unfold calculate_spread_rate.
  rewrite pow_negative_base_fractional;
    [ reflexivity | lra | exact WIND_EXPONENT_fractional ].
Qed.

End Formulas.

(* ================================================================= *)
(** ** The simulation loop *)

Section Simulation.

Variables (origin_lat origin_lon : R).

Lemma perimeter_loop (distance_m : R) :
  for_each (range 0 16) (perimeter_step origin_lat origin_lon distance_m 16) [] =
  Ok (map (point_of origin_lat origin_lon distance_m) (range 0 16)).
Proof.
  rewrite (for_each_append (point_of origin_lat origin_lon distance_m)).
  - reflexivity.
  - intros i s _. unfold perimeter_step.
    rewrite truediv_ok by lra. cbn [bind].
    rewrite calculate_spread_direction_ok. unfold point_of. cbn [bind].
    destruct (destination origin_lat origin_lon (360 / 16 * IZR i) distance_m).
    reflexivity.
Qed.

Lemma zone_step_ok (spread_rate : R) (time_steps : Z) (time_interval : R)
      (k : Z) (fire_zones : list FireZone) :
  time_steps <> 0%Z ->
  zone_step origin_lat origin_lon spread_rate time_steps time_interval k fire_zones =
  Ok (fire_zones ++
      [zone_of origin_lat origin_lon spread_rate time_steps time_interval k]).
Proof.
  intros Hn. unfold zone_step.
  rewrite truediv_ok by (apply not_0_IZR; exact Hn). cbn [bind].
  rewrite perimeter_loop. reflexivity.
Qed.

(** With no time step the body is never run, so the division is not reached. *)
Lemma zone_loop (spread_rate : R) (time_steps : Z) (time_interval : R) :
  for_each (range 1 (time_steps + 1))
           (zone_step origin_lat origin_lon spread_rate time_steps time_interval) [] =
  Ok (map (zone_of origin_lat origin_lon spread_rate time_steps time_interval)
          (range 1 (time_steps + 1))).
Proof.
  rewrite (for_each_append
             (zone_of origin_lat origin_lon spread_rate time_steps time_interval)).
  - reflexivity.
  - intros k s Hk. apply range_In in Hk. apply zone_step_ok. lia.
Qed.

(** The result of a run whose street-canyon wind is not negative. *)
Lemma simulate_ok_urban (wind_speed building_density : R) (time_steps : Z)
      (time_interval : R) :
  0 <= spec_urban_wind wind_speed default_building_height default_street_width ->
  simulate origin_lat origin_lon wind_speed building_density time_steps time_interval =
  Ok (result_of origin_lat origin_lon wind_speed building_density time_steps
                time_interval).
Proof.
  intros Hu. unfold simulate, result_of.
  rewrite calculate_urban_wind_eq by (unfold default_street_width; lra).
  cbn [bind].
  rewrite calculate_spread_rate_eq by exact Hu.
  cbn [bind].
  rewrite zone_loop. cbn [bind].
  rewrite pow_2. reflexivity.
Qed.

(** The result of a run whose wind speed is not negative. *)
Lemma simulate_ok (wind_speed building_density : R) (time_steps : Z)
      (time_interval : R) :
  0 <= wind_speed ->
  simulate origin_lat origin_lon wind_speed building_density time_steps time_interval =
  Ok (result_of origin_lat origin_lon wind_speed building_density time_steps
                time_interval).
Proof.
  intros Hw. apply simulate_ok_urban. apply spec_urban_wind_nonneg. exact Hw.
Qed.

(** A negative wind speed makes the run raise. *)
Lemma simulate_negative_urban_wind (wind_speed building_density : R)
      (time_steps : Z) (time_interval : R) :
  spec_urban_wind wind_speed default_building_height default_street_width < 0 ->
  simulate origin_lat origin_lon wind_speed building_density time_steps time_interval =
  Err TypeError.
Proof.
  intros Hu. unfold simulate.
  rewrite calculate_urban_wind_eq by (unfold default_street_width; lra). cbn [bind].
  rewrite calculate_spread_rate_negative_wind by exact Hu. reflexivity.
Qed.

End Simulation.

(* ================================================================= *)
(** ** Lists built over a range *)

Section RangeLists.

Context {B : Type} (f : Z -> B).







End RangeLists.

(* ================================================================= *)
(** ** The intensity of a step *)

Section Intensity.

Variables (k n : Z).
Hypothesis Hk : (1 <= k <= n)%Z.



End Intensity.





(* ================================================================= *)
(** ** The chosen values in double precision *)

Section DoublePrecision.

Local Open Scope float_scope.





(** With 500 steps the stored intensities decrease strictly, with 501 they
    do not; with 999 steps the first one is below 1.0, with 1000 it is
    not. *)
Lemma binary64_intensity_profile :
  Binary64.strictly_decreasing 500 = true /\
  Binary64.strictly_decreasing 501 = false /\
  Binary64.first_below_one 999 = true /\
  Binary64.first_below_one 1000 = false.
Proof.
  split; [ | split; [ | split ] ]; vm_compute; reflexivity.
Qed.



(** At a density of 100 the spread rate is the float 0.0. *)
#[warnings="-inexact-float"]
Lemma binary64_spread_rate_density_100 :
  Binary64.calculate_spread_rate 3.6 100 = Some 0%float /\
  Binary64.calculate_spread_rate 0 100 = Some 0%float.
Proof. split; vm_compute; reflexivity. Qed.

End DoublePrecision.

(* ================================================================= *)
(** ** A run without time steps *)

(** For [time_steps = 0] the run returns: [range(1, 1)] is empty, the loop
    body with the division [step / time_steps] is never entered.  Shown on
    the default scenario of the specification. *)
Lemma simulate_zero_steps_returns :
  simulate 34.0522 (-118.2437) 15 40 0 5 <> Err ZeroDivisionError /\
  exists r, simulate 34.0522 (-118.2437) 15 40 0 5 = Ok r /\ zones r = [].
Proof.
  rewrite simulate_ok by lra. split.
  - discriminate.
  - eexists. split; [ reflexivity | ]. reflexivity.
Qed.

(** C1, as the code has it: with [time_steps = 0] no call raises a
    division-by-zero error, whatever the other arguments are; and for a wind
    speed that is not negative the run returns a result with no zone, a total
    time of 0, a maximal distance of 0 and an affected area of 0. *)
Theorem simulate_zero_steps (origin_lat origin_lon wind_speed building_density
                             time_interval : R) :
  simulate origin_lat origin_lon wind_speed building_density 0 time_interval
    <> Err ZeroDivisionError /\
  (0 <= wind_speed ->
   exists r,
     simulate origin_lat origin_lon wind_speed building_density 0 time_interval
       = Ok r /\
     zones r = [] /\
     totalTime (summary r) = 0 /\
     maxDistance (summary r) = 0 /\
     affectedArea (summary r) = 0).
Proof.
  split.
  - destruct (Rle_dec 0 (spec_urban_wind wind_speed default_building_height
                                         default_street_width)) as [Hu | Hu].
    + rewrite simulate_ok_urban by exact Hu. discriminate.
    + rewrite simulate_negative_urban_wind by lra. discriminate.
  - intros Hw. rewrite simulate_ok by exact Hw.
    eexists. split; [ reflexivity | ].
    unfold result_of. cbn [zones summary totalTime maxDistance affectedArea].
    repeat split.
    + ring.
    + rewrite Rmult_0_r. apply round_0.
    + rewrite !Rmult_0_r. apply round_0.
Qed.

Lemma simulate_zero_steps_witness :
  0 <= 15 /\
  exists r,
    simulate 34.0522 (-118.2437) 15 40 0 5 = Ok r /\
    zones r = [] /\
    totalTime (summary r) = 0 /\
    maxDistance (summary r) = 0 /\
    affectedArea (summary r) = 0.
Proof.
  split; [ lra | ].
  apply (proj2 (simulate_zero_steps 34.0522 (-118.2437) 15 40 5)). lra.
Defined.

(* ================================================================= *)
(** ** The interval of the intensities *)




(* ================================================================= *)
(** ** Values of the formulas at chosen inputs *)

Section ChosenInputs.







End ChosenInputs.

(* ================================================================= *)
(** ** The summary *)




(* ================================================================= *)
(** ** A building density of 100 *)




(* ================================================================= *)
(** ** The spread rate *)

(** The rate that [simulate] reports is the one of the street-canyon wind.
    On a base wind of 0.003 km/h the street-canyon wind rounds to 0 and the
    reported rate is 26.374, while [calculate_spread_rate] applied to the
    base wind itself returns more than 26.38. *)
Lemma base_wind_rate_differs :
  exists r v,
    simulate 34.0522 (-118.2437) 0.003 40 1 5 = Ok r /\
    urbanWind (parameters r) = 0 /\
    spreadRate (parameters r) = 26.374 /\
    calculate_spread_rate 0.003 40 = Ok v /\
    26.38 <= v.
Proof.
  rewrite simulate_ok by lra.
  rewrite calculate_spread_rate_eq by lra.
  eexists. eexists. split; [ reflexivity | ].
  unfold result_of. cbn [parameters urbanWind spreadRate].
  assert (Hu : spec_urban_wind 0.003 default_building_height
                               default_street_width = 0).
  { unfold spec_urban_wind, default_building_height, default_street_width.
    round_value 0%Z. }
  rewrite Hu.
  split; [ reflexivity | ]. split; [ | split; [ reflexivity | ] ].
  - unfold spec_spread_rate.
    replace (0 / 3.6) with 0 by lra. rewrite spec_power_0.
    round_value 26374%Z.
  - unfold spec_spread_rate.
    assert (Hp : 0.003 / 3.6 <= spec_power (0.003 / 3.6) 0.02526).
    { unfold spec_power.
      destruct (Req_dec_T (0.003 / 3.6) 0) as [E | _]; [ lra | ].
      unfold Rpower.
      assert (Hx : 0 < 0.003 / 3.6) by lra.
      rewrite <- (exp_ln (0.003 / 3.6)) at 1 by exact Hx.
      assert (Hln : ln (0.003 / 3.6) < 0).
      { rewrite <- ln_1. apply ln_increasing; lra. }
      destruct (Req_dec (ln (0.003 / 3.6)) (0.02526 * ln (0.003 / 3.6)))
        as [E | NE].
      - rewrite <- E. lra.
      - left. apply exp_increasing. nra. }
    apply Rle_trans with (round (IZR 26380 / 10 ^ 3) 3).
    + rewrite round_decimal. simpl. lra.
    + apply round_mono. simpl. lra.
Qed.



(* ================================================================= *)
(** ** The intensity profile *)




(* ================================================================= *)
(** ** The zones and their perimeters *)



(* ================================================================= *)
(** ** The street-canyon wind *)



(* ================================================================= *)
(** ** A zero distance *)

(** C9: for a latitude in -90..90, a longitude in -180..180 and any bearing,
    [calculate_spread_direction lat lon bearing 0] returns the point
    [(lat, lon)]: a zero distance produces no movement.  In the arithmetic of
    the model the two points are equal, hence within any tolerance of each
    other. *)
Theorem zero_distance_no_movement (origin_lat origin_lon bearing : R) :
  -90 <= origin_lat <= 90 -> -180 <= origin_lon <= 180 ->
  calculate_spread_direction origin_lat origin_lon bearing 0 =
  Ok (origin_lat, origin_lon).
Proof.
  intros Hlat _. rewrite calculate_spread_direction_ok.
  rewrite destination_zero by exact Hlat. reflexivity.
Qed.

Lemma zero_distance_no_movement_witness :
  -90 <= 34.0522 <= 90 /\ -180 <= -118.2437 <= 180 /\
  calculate_spread_direction 34.0522 (-118.2437) 22.5 0 =
  Ok (34.0522, -118.2437).
Proof.
  split; [ lra | ]. split; [ lra | ].
  apply (zero_distance_no_movement 34.0522 (-118.2437) 22.5); lra.
Defined.

(* ================================================================= *)
(** ** A building density above 100 *)

Section DensityAbove100.

Variables (w d : R).

(** The rate before the density factor is at least 43.9, whatever the wind. *)
Lemma open_ground_rate_lower_bound :
  43.9 <= 3000 * 0.8 * (1 + 0.4 * spec_power (w / 3.6) 0.02526) / (0.035 * 2 * 780).
Proof.
  pose proof (spec_power_nonneg (w / 3.6) 0.02526) as Hp. lra.
Qed.



End DensityAbove100.






(* ================================================================= *)
(** ** Further properties of the three formulas *)

Section Monotonicity.

Lemma spec_power_mono (x y c : R) :
  0 <= c -> 0 <= x <= y -> spec_power x c <= spec_power y c.
Proof.
  intros Hc [Hx Hxy]. unfold spec_power.
  destruct (Req_dec_T x 0) as [Ex | Nx].
  - destruct (Req_dec_T y 0) as [_ | _]; [ lra | ].
    unfold Rpower. left. apply exp_pos.
  - destruct (Req_dec_T y 0) as [Ey | _]; [ lra | ].
    apply Rle_Rpower_l; [ exact Hc | lra ].
Qed.

(** The rate on open ground (before the density factor) grows with the
    wind. *)
Lemma open_ground_rate_mono (w w' : R) :
  0 <= w <= w' ->
  3000 * 0.8 * (1 + 0.4 * spec_power (w / 3.6) 0.02526) / (0.035 * 2 * 780) <=
  3000 * 0.8 * (1 + 0.4 * spec_power (w' / 3.6) 0.02526) / (0.035 * 2 * 780).
Proof.
  intros Hw.
  assert (Hp : spec_power (w / 3.6) 0.02526 <= spec_power (w' / 3.6) 0.02526)
    by (apply spec_power_mono; lra).
  lra.
Qed.

End Monotonicity.

(** X1: In a street canyon of positive width and non-negative height the wind is
    never slowed down: the urban wind is monotone in the base wind, and for a
    base wind that is not negative it is at least the base wind rounded to
    two decimals. *)
Theorem urban_wind_amplifies (b b' h w : R) :
  0 <= h -> 0 < w -> b <= b' ->
  exists u u',
    calculate_urban_wind b h w = Ok u /\
    calculate_urban_wind b' h w = Ok u' /\
    u <= u' /\
    (0 <= b -> round b 2 <= u).
Proof.
  intros Hh Hw Hb.
  rewrite !calculate_urban_wind_eq by lra.
  eexists. eexists. split; [ reflexivity | ]. split; [ reflexivity | ].
  unfold spec_urban_wind.
  assert (Hr : 0 <= h / w).
  { unfold Rdiv. apply Rmult_le_pos; [ lra | ].
    left. apply Rinv_0_lt_compat. lra. }
  split.
  - apply round_mono. nra.
  - intros Hb0. apply round_mono. nra.
Qed.

Lemma urban_wind_amplifies_witness :
  0 <= 20 /\ 0 < 15 /\ 10 <= 15 /\
  exists u u',
    calculate_urban_wind 10 20 15 = Ok u /\
    calculate_urban_wind 15 20 15 = Ok u' /\
    u <= u' /\
    (0 <= 10 -> round 10 2 <= u).
Proof.
  split; [ lra | ]. split; [ lra | ]. split; [ lra | ].
  apply (urban_wind_amplifies 10 15 20 15); lra.
Defined.

(** X2: The spread rate never grows with the building density, and for a density
    of at most 100 it never shrinks when the wind grows. *)
Theorem spread_rate_monotone (w w' d d' : R) :
  0 <= w -> w <= w' -> d <= d' ->
  exists v v_denser v_windier,
    calculate_spread_rate w d = Ok v /\
    calculate_spread_rate w d' = Ok v_denser /\
    calculate_spread_rate w' d = Ok v_windier /\
    v_denser <= v /\
    (d <= 100 -> v <= v_windier).
Proof.
  intros Hw Hww Hdd.
  rewrite !calculate_spread_rate_eq by lra.
  eexists. eexists. eexists.
  split; [ reflexivity | ]. split; [ reflexivity | ]. split; [ reflexivity | ].
  unfold spec_spread_rate.
  pose proof (open_ground_rate_lower_bound w) as Hq.
  pose proof (open_ground_rate_mono w w' (conj Hw Hww)) as Hm.
  split.
  - apply round_mono. nra.
  - intros Hd. apply round_mono. nra.
Qed.

Lemma spread_rate_monotone_witness :
  0 <= 10 /\ 10 <= 20 /\ 40 <= 60 /\
  exists v v_denser v_windier,
    calculate_spread_rate 10 40 = Ok v /\
    calculate_spread_rate 10 60 = Ok v_denser /\
    calculate_spread_rate 20 40 = Ok v_windier /\
    v_denser <= v /\
    (40 <= 100 -> v <= v_windier).
Proof.
  split; [ lra | ]. split; [ lra | ]. split; [ lra | ].
  apply (spread_rate_monotone 10 20 40 60); lra.
Defined.

(* ================================================================= *)
(** ** Further properties of a run *)





(** X4: A step count that is not positive is accepted without complaint: the run
    returns no zone, and the summary is computed from the count as it is, so
    a negative count with a positive interval reports a negative total
    time next to an affected area that is not negative. *)
Theorem nonpositive_step_count
        (origin_lat origin_lon wind_speed building_density time_interval : R)
        (time_steps : Z) :
  0 <= wind_speed -> (time_steps <= 0)%Z ->
  exists r,
    simulate origin_lat origin_lon wind_speed building_density time_steps
             time_interval = Ok r /\
    zones r = [] /\
    totalTime (summary r) = IZR time_steps * time_interval /\
    ((time_steps < 0)%Z -> 0 < time_interval -> totalTime (summary r) < 0) /\
    0 <= affectedArea (summary r).
Proof.
  intros Hw Hn. rewrite simulate_ok by exact Hw.
  eexists. split; [ reflexivity | ].
  unfold result_of. cbn [zones summary totalTime affectedArea].
  split; [ rewrite range_empty by lia; reflexivity | ].
  split; [ reflexivity | ].
  split.
  - intros Hneg Hti.
    assert (H : IZR time_steps < 0) by (apply IZR_lt; exact Hneg). nra.
  - rewrite <- (round_0 2). apply round_mono.
    pose proof PI_RGT_0 as Hpi.
    apply Rmult_le_pos; [ lra | ].
    apply Rle_0_sqr.
Qed.

Lemma nonpositive_step_count_witness :
  0 <= 15 /\ (-3 <= 0)%Z /\
  exists r,
    simulate 34.0522 (-118.2437) 15 40 (-3) 5 = Ok r /\
    zones r = [] /\
    totalTime (summary r) = IZR (-3) * 5 /\
    ((-3 < 0)%Z -> 0 < 5 -> totalTime (summary r) < 0) /\
    0 <= affectedArea (summary r).
Proof.
  split; [ lra | ]. split; [ lia | ].
  apply (nonpositive_step_count 34.0522 (-118.2437) 15 40 5 (-3)); [ lra | lia ].
Defined.

(** A number below minus one half of the last kept decimal rounds to a
    negative number. *)
Lemma round_negative (x : R) (n : nat) :
  x * 10 ^ n < - (1 / 2) -> round x n < 0.
Proof.
  intros Hx. unfold round.
  destruct (round_half_even_bounds (x * 10 ^ n)) as [Blo _].
  pose proof (pow10_pos n) as Hp.
  assert (Hq : 0 < / 10 ^ n) by (apply Rinv_0_lt_compat; exact Hp).
  unfold Rdiv. nra.
Qed.

(** X5: A wind speed of -0.004 km/h or below has a negative street-canyon wind,
    for which the power of the wind term is a complex number: the run raises
    [TypeError] whatever the other arguments are, even with no time step. *)
Theorem negative_wind_raises
        (origin_lat origin_lon wind_speed building_density time_interval : R)
        (time_steps : Z) :
  wind_speed <= -0.004 ->
  calculate_spread_rate wind_speed building_density = Err TypeError /\
  simulate origin_lat origin_lon wind_speed building_density time_steps
           time_interval = Err TypeError.
Proof.
  intros Hw. split.
  - apply calculate_spread_rate_negative_wind. lra.
  - apply simulate_negative_urban_wind.
    unfold spec_urban_wind, default_building_height, default_street_width.
    apply round_negative. simpl. lra.
Qed.

Lemma negative_wind_raises_witness :
  -5 <= -0.004 /\
  calculate_spread_rate (-5) 40 = Err TypeError /\
  simulate 34.0522 (-118.2437) (-5) 40 10 5 = Err TypeError.
Proof.
  split; [ lra | ].
  apply (negative_wind_raises 34.0522 (-118.2437) (-5) 40 5 10). lra.
Defined.

(** X6: The two formulas fail in one way each: [calculate_urban_wind] raises
    exactly when the street width is zero, with [ZeroDivisionError], and
    [calculate_spread_rate] raises exactly when the wind is negative, with
    [TypeError]; the building density never makes either of them fail. *)
Theorem formula_failures :
  (forall b h w e,
      calculate_urban_wind b h w = Err e <-> w = 0 /\ e = ZeroDivisionError) /\
  (forall w d e,
      calculate_spread_rate w d = Err e <-> w < 0 /\ e = TypeError).
Proof.
  split.
  - intros b h w e. split.
    + intros H. destruct (Req_dec w 0) as [-> | Hw].
      * rewrite calculate_urban_wind_zero_width in H.
        split; [ reflexivity | congruence ].
      * rewrite calculate_urban_wind_eq in H by exact Hw. discriminate.
    + intros [-> ->]. apply calculate_urban_wind_zero_width.
  - intros w d e. split.
    + intros H. destruct (Rlt_le_dec w 0) as [Hw | Hw].
      * rewrite calculate_spread_rate_negative_wind in H by exact Hw.
        split; [ exact Hw | congruence ].
      * rewrite calculate_spread_rate_eq in H by exact Hw. discriminate.
    + intros [Hw ->]. apply calculate_spread_rate_negative_wind. exact Hw.
Qed.



(* ================================================================= *)
(** ** The geometry of [calculate_spread_direction] *)

Section Geometry.






End Geometry.


Section GreatCircle.

Variables (origin_lat origin_lon angle_deg distance_m : R).
Hypothesis Hlat : -90 <= origin_lat <= 90.


End GreatCircle.










(* ================================================================= *)
(** ** The route [POST /api/simulate] *)

Section SimulateRoute.

Import App.

(** The route on a body that is a JSON object. *)
Lemma simulate_fire_object (d : list (string * json)) :
  simulate_fire (Return (JDict d)) =
  if (is_None (value_or d "lat" JNull) || is_None (value_or d "lon" JNull))%bool
  then
    {| status := 400; success := false;
       content := inr (Literal "Missing lat or lon") |}
  else
    match simulate_call (value_or d "lat" JNull) (value_or d "lon" JNull)
                        (value_or d "windSpeed" (JInt 15))
                        (value_or d "buildingDensity" (JInt 40))
                        (value_or d "timeSteps" (JInt 10)) with
    | Return result => {| status := 200; success := true; content := inl result |}
    | Raise e => {| status := 500; success := false; content := inr (Str e) |}
    end.
Proof.
  unfold simulate_fire, get. cbn [and_then].
  destruct (is_None (value_or d "lat" JNull) || is_None (value_or d "lon" JNull))%bool;
    [ reflexivity | ].
  destruct (simulate_call _ _ _ _ _); reflexivity.
Qed.


Lemma number_raises (v : json) (e : exception) :
  number v = Raise e -> e = Builtin TypeError.
Proof. destruct v; simpl; intros H; try discriminate; congruence. Qed.

Lemma integer_raises (v : json) (e : exception) :
  integer v = Raise e -> e = Builtin TypeError.
Proof. destruct v; simpl; intros H; try discriminate; congruence. Qed.


End SimulateRoute.

(** X13: A request without latitude or without longitude (the key is absent or
    its value is null) is answered with status 400 and the message
    'Missing lat or lon', whatever the other entries are; the model is not
    run. *)
Theorem missing_coordinates_rejected (d : list (string * json)) :
  is_None (value_or d "lat" JNull) = true \/
  is_None (value_or d "lon" JNull) = true ->
  App.simulate_fire (Return (JDict d)) =
  {| App.status := 400; App.success := false;
     App.content := inr (App.Literal "Missing lat or lon") |}.
Proof.
  intros H. rewrite simulate_fire_object.
  destruct H as [H | H]; rewrite H.
  - reflexivity.
  - rewrite Bool.orb_true_r. reflexivity.
Qed.

Lemma missing_coordinates_rejected_witness :
  (is_None (value_or [("lon"%string, JFloat 2); ("windSpeed"%string, JStr "x")]
                     "lat" JNull) = true \/
   is_None (value_or [("lon"%string, JFloat 2); ("windSpeed"%string, JStr "x")]
                     "lon" JNull) = true) /\
  App.simulate_fire
    (Return (JDict [("lon"%string, JFloat 2); ("windSpeed"%string, JStr "x")])) =
  {| App.status := 400; App.success := false;
     App.content := inr (App.Literal "Missing lat or lon") |}.
Proof.
  split; [ left; reflexivity | ].
  apply (missing_coordinates_rejected
           [("lon"%string, JFloat 2); ("windSpeed"%string, JStr "x")]).
  left. reflexivity.
Defined.



(** X15: A default replaces a key that is absent, not a value of the wrong type:
    when both coordinates are given, a wind speed or a density that is not a
    number (null, a string, a list, an object) and a step count that is not
    an integer (a float such as 10.0 included) are answered with status 500
    and the text of a [TypeError], whatever the other entries are. *)
Theorem wrong_type_answers_500 (d : list (string * json)) (e : exception) :
  is_None (value_or d "lat" JNull) = false ->
  is_None (value_or d "lon" JNull) = false ->
  number (value_or d "windSpeed" (JInt 15)) = Raise e \/
  number (value_or d "buildingDensity" (JInt 40)) = Raise e \/
  integer (value_or d "timeSteps" (JInt 10)) = Raise e ->
  App.simulate_fire (Return (JDict d)) =
  {| App.status := 500; App.success := false;
     App.content := inr (App.Str (Builtin TypeError)) |}.
Proof.
  intros Hlat Hlon H. rewrite simulate_fire_object, Hlat, Hlon. cbn [orb].
  unfold App.simulate_call.
  destruct (number (value_or d "windSpeed" (JInt 15))) as [w | ew] eqn:Ew.
  2:{ apply number_raises in Ew. subst ew. reflexivity. }
  destruct (number (value_or d "buildingDensity" (JInt 40))) as [dens | ed] eqn:Ed.
  2:{ apply number_raises in Ed. subst ed. reflexivity. }
  destruct (integer (value_or d "timeSteps" (JInt 10))) as [n | en] eqn:En.
  2:{ apply integer_raises in En. subst en. reflexivity. }
  destruct H as [H | [H | H]]; discriminate.
Qed.

Lemma wrong_type_answers_500_witness :
  is_None (value_or [("lat"%string, JFloat 34); ("lon"%string, JFloat 2);
                     ("timeSteps"%string, JFloat 10)] "lat" JNull) = false /\
  is_None (value_or [("lat"%string, JFloat 34); ("lon"%string, JFloat 2);
                     ("timeSteps"%string, JFloat 10)] "lon" JNull) = false /\
  (number (value_or [("lat"%string, JFloat 34); ("lon"%string, JFloat 2);
                     ("timeSteps"%string, JFloat 10)] "windSpeed" (JInt 15))
     = Raise (Builtin TypeError) \/
   number (value_or [("lat"%string, JFloat 34); ("lon"%string, JFloat 2);
                     ("timeSteps"%string, JFloat 10)] "buildingDensity" (JInt 40))
     = Raise (Builtin TypeError) \/
   integer (value_or [("lat"%string, JFloat 34); ("lon"%string, JFloat 2);
                      ("timeSteps"%string, JFloat 10)] "timeSteps" (JInt 10))
     = Raise (Builtin TypeError)) /\
  App.simulate_fire
    (Return (JDict [("lat"%string, JFloat 34); ("lon"%string, JFloat 2);
                    ("timeSteps"%string, JFloat 10)])) =
  {| App.status := 500; App.success := false;
     App.content := inr (App.Str (Builtin TypeError)) |}.
Proof.
  split; [ reflexivity | ]. split; [ reflexivity | ].
  split; [ right; right; reflexivity | ].
  apply (wrong_type_answers_500
           [("lat"%string, JFloat 34); ("lon"%string, JFloat 2);
            ("timeSteps"%string, JFloat 10)] (Builtin TypeError));
    [ reflexivity | reflexivity | right; right; reflexivity ].
Defined.

(** X16: The coordinates are only checked against null.  With a step count that
    is not positive they are never used: any value that is not null, a
    string for instance, is accepted and sent back as the origin, with status
    200 and no zone.  With a positive step count a coordinate that is not a
    number is answered with status 500. *)
Theorem coordinates_checked_by_use (d : list (string * json))
        (w dens : R) (n : Z) :
  is_None (value_or d "lat" JNull) = false ->
  is_None (value_or d "lon" JNull) = false ->
  number (value_or d "windSpeed" (JInt 15)) = Return w ->
  0 <= w ->
  number (value_or d "buildingDensity" (JInt 40)) = Return dens ->
  integer (value_or d "timeSteps" (JInt 10)) = Return n ->
  ((n <= 0)%Z ->
   exists result,
     App.simulate_fire (Return (JDict d)) =
     {| App.status := 200; App.success := true; App.content := inl result |} /\
     App.api_origin result = (value_or d "lat" JNull, value_or d "lon" JNull) /\
     App.api_zones result = []) /\
  ((0 < n)%Z ->
   (forall x, number (value_or d "lat" JNull) <> Return x) \/
   (forall x, number (value_or d "lon" JNull) <> Return x) ->
   App.simulate_fire (Return (JDict d)) =
   {| App.status := 500; App.success := false;
      App.content := inr (App.Str (Builtin TypeError)) |}).
Proof.
  intros Hlat Hlon Hwind Hw Hdens Hn.
  rewrite simulate_fire_object, Hlat, Hlon. cbn [orb].
  unfold App.simulate_call. rewrite Hwind, Hdens, Hn. cbn [and_then].
  split.
  - intros Hle.
    assert (En : (0 <? n)%Z = false) by (apply Z.ltb_ge; exact Hle).
    rewrite En, simulate_ok by exact Hw. cbn [lift and_then].
    eexists. split; [ reflexivity | ].
    unfold App.api_result, result_of. cbn [App.api_origin App.api_zones zones].
    rewrite range_empty by lia. split; reflexivity.
  - intros Hpos Hbad.
    assert (En : (0 <? n)%Z = true) by (apply Z.ltb_lt; exact Hpos).
    rewrite En.
    destruct (number (value_or d "lat" JNull)) as [x | e1] eqn:E1.
    + destruct (number (value_or d "lon" JNull)) as [y | e2] eqn:E2.
      * destruct Hbad as [Hbad | Hbad];
          [ contradiction (Hbad x) | contradiction (Hbad y) ]; reflexivity.
      * apply number_raises in E2. subst e2. reflexivity.
    + apply number_raises in E1. subst e1. reflexivity.
Qed.

Lemma coordinates_checked_by_use_witness :
  is_None (value_or [("lat"%string, JStr "north"); ("lon"%string, JInt 2);
                     ("timeSteps"%string, JInt 0)] "lat" JNull) = false /\
  is_None (value_or [("lat"%string, JStr "north"); ("lon"%string, JInt 2);
                     ("timeSteps"%string, JInt 0)] "lon" JNull) = false /\
  number (value_or [("lat"%string, JStr "north"); ("lon"%string, JInt 2);
                    ("timeSteps"%string, JInt 0)] "windSpeed" (JInt 15))
    = Return 15 /\
  0 <= 15 /\
  number (value_or [("lat"%string, JStr "north"); ("lon"%string, JInt 2);
                    ("timeSteps"%string, JInt 0)] "buildingDensity" (JInt 40))
    = Return 40 /\
  integer (value_or [("lat"%string, JStr "north"); ("lon"%string, JInt 2);
                     ("timeSteps"%string, JInt 0)] "timeSteps" (JInt 10))
    = Return 0%Z /\
  exists result,
    App.simulate_fire
      (Return (JDict [("lat"%string, JStr "north"); ("lon"%string, JInt 2);
                      ("timeSteps"%string, JInt 0)])) =
    {| App.status := 200; App.success := true; App.content := inl result |} /\
    App.api_origin result = (JStr "north", JInt 2) /\
    App.api_zones result = [].
Proof.
  split; [ reflexivity | ]. split; [ reflexivity | ]. split; [ reflexivity | ].
  split; [ lra | ]. split; [ reflexivity | ]. split; [ reflexivity | ].
  apply (proj1 (coordinates_checked_by_use
                  [("lat"%string, JStr "north"); ("lon"%string, JInt 2);
                   ("timeSteps"%string, JInt 0)] 15 40 0
                  eq_refl eq_refl eq_refl ltac:(lra) eq_refl eq_refl)).
  lia.
Defined.

(** X17: A request whose body is JSON but not an object (null, a number, a
    string, a list) is answered with status 500 and the text of the
    [AttributeError] of [data.get], not with status 400; a body that
    [request.json] refuses is answered with status 500 and the text of that
    exception. *)
Theorem non_object_body_answers_500 (v : json) :
  (forall d, v <> JDict d) ->
  App.simulate_fire (Return v) =
  {| App.status := 500; App.success := false;
     App.content := inr (App.Str AttributeError) |} /\
  (forall e,
      App.simulate_fire (Raise e) =
      {| App.status := 500; App.success := false;
         App.content := inr (App.Str e) |}).
Proof.
  intros Hv. split.
  - destruct v; try reflexivity.
    contradiction (Hv d). reflexivity.
  - intros e. reflexivity.
Qed.

Lemma non_object_body_answers_500_witness :
  (forall d, JList [JFloat 34; JFloat 2] <> JDict d) /\
  App.simulate_fire (Return (JList [JFloat 34; JFloat 2])) =
  {| App.status := 500; App.success := false;
     App.content := inr (App.Str AttributeError) |}.
Proof.
  split; [ intros d; discriminate | ].
  apply (proj1 (non_object_body_answers_500
                  (JList [JFloat 34; JFloat 2])
                  (fun d => ltac:(discriminate)))).
Defined.

(* ================================================================= *)
(** ** The weather report *)

Section WeatherFacts.

Import WeatherAPI.

Lemma mock_branch (api_key : string) (world : World) (lat lon : R) :
  api_key = EmptyString \/ api_key = "YOUR_OPENWEATHER_KEY_HERE"%string ->
  get_weather api_key world lat lon =
  (Return (_get_mock_weather world lat lon), []).
Proof.
  intros [-> | ->]; reflexivity.
Qed.

Lemma request_branch (api_key : string) (world : World) (lat lon : R) :
  api_key <> EmptyString -> api_key <> "YOUR_OPENWEATHER_KEY_HERE"%string ->
  get_weather api_key world lat lon =
  let params := {| param_lat := lat; param_lon := lon;
                   param_appid := api_key; param_units := "metric" |} in
  match fetch world params with
  | Raise RequestException =>
      (Return (_get_mock_weather world lat lon),
       [Requested base_url params 5; Printed_error])
  | Raise e => (Raise e, [Requested base_url params 5])
  | Return data => (report world data, [Requested base_url params 5])
  end.
Proof.
  intros H1 H2. unfold get_weather.
  apply String.eqb_neq in H1. apply String.eqb_neq in H2.
  rewrite H1, H2. reflexivity.
Qed.

Lemma round_within (a b : Z) (x : R) (n : nat) :
  IZR a <= x <= IZR b -> IZR a <= Py.round x n <= IZR b.
Proof.
  intros [Ha Hb]. split.
  - rewrite <- (round_IZR a n). apply round_mono. exact Ha.
  - rewrite <- (round_IZR b n). apply round_mono. exact Hb.
Qed.

End WeatherFacts.

(** X18: Without a usable API key (the key is empty or is the placeholder of the
    configuration) no request is sent and nothing is printed: the report is
    the mock one, and as long as the random generator keeps its documented
    ranges, its temperature lies in 15..30, its humidity in 30..70, its wind
    speed in 10..25, its wind direction in 0..360 and its pressure in
    1000..1020, rounding included. *)
Theorem keyless_report_is_mock (api_key : string) (world : WeatherAPI.World)
        (lat lon : R) :
  WeatherAPI.draws_in_range (WeatherAPI.random world) ->
  api_key = EmptyString \/ api_key = "YOUR_OPENWEATHER_KEY_HERE"%string ->
  exists report t h v dir p,
    WeatherAPI.get_weather api_key world lat lon = (Return report, []) /\
    WeatherAPI.temperature report = JFloat t /\ 15 <= t <= 30 /\
    WeatherAPI.humidity report = JInt h /\ (30 <= h <= 70)%Z /\
    WeatherAPI.windSpeed report = JFloat v /\ 10 <= v <= 25 /\
    WeatherAPI.windDirection report = JInt dir /\ (0 <= dir <= 360)%Z /\
    WeatherAPI.pressure report = JInt p /\ (1000 <= p <= 1020)%Z /\
    WeatherAPI.source report = "Mock Data (Add API key for real data)"%string.
Proof.
  intros [Hu Hi] Hkey. rewrite mock_branch by exact Hkey.
  eexists. eexists. eexists. eexists. eexists. eexists.
  split; [ reflexivity | ].
  cbn [WeatherAPI._get_mock_weather WeatherAPI.temperature WeatherAPI.humidity
       WeatherAPI.windSpeed WeatherAPI.windDirection WeatherAPI.pressure
       WeatherAPI.source].
  split; [ reflexivity | ].
  split; [ apply (round_within 15 30); apply Hu; lra | ].
  split; [ reflexivity | ].
  split; [ apply Hi; lia | ].
  split; [ reflexivity | ].
  split; [ apply (round_within 10 25); apply Hu; lra | ].
  split; [ reflexivity | ].
  split; [ apply Hi; lia | ].
  split; [ reflexivity | ].
  split; [ apply Hi; lia | reflexivity ].
Qed.

Lemma offline_world_draws_in_range :
  WeatherAPI.draws_in_range (WeatherAPI.random WeatherAPI.offline_world).
Proof.
  split; simpl; intros a b H; [ lra | lia ].
Qed.

Lemma keyless_report_is_mock_witness :
  WeatherAPI.draws_in_range (WeatherAPI.random WeatherAPI.offline_world) /\
  (EmptyString = EmptyString \/
   EmptyString = "YOUR_OPENWEATHER_KEY_HERE"%string) /\
  exists report t h v dir p,
    WeatherAPI.get_weather EmptyString WeatherAPI.offline_world 34.0522 (-118.2437)
      = (Return report, []) /\
    WeatherAPI.temperature report = JFloat t /\ 15 <= t <= 30 /\
    WeatherAPI.humidity report = JInt h /\ (30 <= h <= 70)%Z /\
    WeatherAPI.windSpeed report = JFloat v /\ 10 <= v <= 25 /\
    WeatherAPI.windDirection report = JInt dir /\ (0 <= dir <= 360)%Z /\
    WeatherAPI.pressure report = JInt p /\ (1000 <= p <= 1020)%Z /\
    WeatherAPI.source report = "Mock Data (Add API key for real data)"%string.
Proof.
  split; [ exact offline_world_draws_in_range | ].
  split; [ left; reflexivity | ].
  apply (keyless_report_is_mock EmptyString WeatherAPI.offline_world
                                34.0522 (-118.2437)).
  - exact offline_world_draws_in_range.
  - left. reflexivity.
Defined.

(** X19: With a key, a request that fails falls back on the mock report and never
    raises: no reply at all, a reply with a status from 400 to 599, and a
    reply whose body is not JSON all end with the mock report, after one
    request and one printed line. *)
Theorem failed_request_falls_back (api_key : string) (world : WeatherAPI.World)
        (lat lon : R) :
  api_key <> EmptyString -> api_key <> "YOUR_OPENWEATHER_KEY_HERE"%string ->
  let params := {| WeatherAPI.param_lat := lat; WeatherAPI.param_lon := lon;
                   WeatherAPI.param_appid := api_key;
                   WeatherAPI.param_units := "metric" |} in
  WeatherAPI.requests_get world WeatherAPI.base_url params 5 = WeatherAPI.NoReply \/
  (exists status_code body,
      WeatherAPI.requests_get world WeatherAPI.base_url params 5
        = WeatherAPI.Reply status_code body /\
      (400 <= status_code < 600)%Z) \/
  (exists status_code,
      WeatherAPI.requests_get world WeatherAPI.base_url params 5
        = WeatherAPI.Reply status_code None) ->
  WeatherAPI.get_weather api_key world lat lon =
  (Return (WeatherAPI._get_mock_weather world lat lon),
   [WeatherAPI.Requested WeatherAPI.base_url params 5; WeatherAPI.Printed_error]).
Proof.
  intros H1 H2 params Hfail.
  rewrite request_branch by assumption. cbv zeta. fold params.
  assert (Hf : WeatherAPI.fetch world params = Raise RequestException).
  { unfold WeatherAPI.fetch.
    destruct Hfail as [-> | [[s [b [-> Hs]]] | [s ->]]].
    - reflexivity.
    - replace (400 <=? s)%Z with true by (symmetry; apply Z.leb_le; lia).
      replace (s <? 600)%Z with true by (symmetry; apply Z.ltb_lt; lia).
      reflexivity.
    - destruct (andb (400 <=? s)%Z (s <? 600)%Z); reflexivity. }
  rewrite Hf. reflexivity.
Qed.

Lemma failed_request_falls_back_witness :
  "k"%string <> EmptyString /\
  "k"%string <> "YOUR_OPENWEATHER_KEY_HERE"%string /\
  (let params := {| WeatherAPI.param_lat := 34.0522;
                    WeatherAPI.param_lon := -118.2437;
                    WeatherAPI.param_appid := "k";
                    WeatherAPI.param_units := "metric" |} in
   WeatherAPI.get_weather "k" WeatherAPI.offline_world 34.0522 (-118.2437) =
   (Return (WeatherAPI._get_mock_weather WeatherAPI.offline_world 34.0522
                                         (-118.2437)),
    [WeatherAPI.Requested WeatherAPI.base_url params 5;
     WeatherAPI.Printed_error])).
Proof.
  split; [ discriminate | ]. split; [ discriminate | ].
  apply (failed_request_falls_back "k" WeatherAPI.offline_world 34.0522
                                   (-118.2437));
    [ discriminate | discriminate | left; reflexivity ].
Defined.



(** X21: A reply that is JSON with a success status but not of the expected shape
    is not treated like a failed request: there is no fallback on the mock
    report.  [get_weather] raises [KeyError] when the entry 'main' is
    missing, [TypeError] when the reply is not an object, and [IndexError]
    when the list 'weather' is empty, each time after one request and with
    nothing printed. *)
Theorem malformed_reply_raises (api_key : string) (world : WeatherAPI.World)
        (lat lon : R) (status_code : Z) (data : json) :
  api_key <> EmptyString -> api_key <> "YOUR_OPENWEATHER_KEY_HERE"%string ->
  ~ (400 <= status_code < 600)%Z ->
  let params := {| WeatherAPI.param_lat := lat; WeatherAPI.param_lon := lon;
                   WeatherAPI.param_appid := api_key;
                   WeatherAPI.param_units := "metric" |} in
  WeatherAPI.requests_get world WeatherAPI.base_url params 5
    = WeatherAPI.Reply status_code (Some data) ->
  ((forall d, data = JDict d -> lookup d "main" = None ->
              WeatherAPI.get_weather api_key world lat lon =
              (Raise KeyError, [WeatherAPI.Requested WeatherAPI.base_url params 5])) /\
   ((forall d, data <> JDict d) ->
    WeatherAPI.get_weather api_key world lat lon =
    (Raise (Builtin TypeError),
     [WeatherAPI.Requested WeatherAPI.base_url params 5])) /\
   (forall d m wd temp_v temp_rounded humidity_v speed_v speed,
       data = JDict d ->
       lookup d "main" = Some (JDict m) ->
       lookup m "temp" = Some temp_v ->
       round_json temp_v 1 = Return temp_rounded ->
       lookup m "humidity" = Some humidity_v ->
       lookup d "wind" = Some (JDict wd) ->
       lookup wd "speed" = Some speed_v ->
       number speed_v = Return speed ->
       lookup d "weather" = Some (JList []) ->
       WeatherAPI.get_weather api_key world lat lon =
       (Raise IndexError, [WeatherAPI.Requested WeatherAPI.base_url params 5]))).
Proof.
  intros H1 H2 Hstatus params Hreply.
  assert (Hfetch : WeatherAPI.fetch world params = Return data).
  { unfold WeatherAPI.fetch. rewrite Hreply.
    destruct (400 <=? status_code)%Z eqn:E1;
      destruct (status_code <? 600)%Z eqn:E2; try reflexivity.
    apply Z.leb_le in E1. apply Z.ltb_lt in E2. lia. }
  split; [ | split ].
  - intros d -> Hmain.
    rewrite request_branch by assumption. cbv zeta. fold params.
    rewrite Hfetch. unfold WeatherAPI.report, getitem. rewrite Hmain.
    reflexivity.
  - intros Hnot.
    rewrite request_branch by assumption. cbv zeta. fold params.
    rewrite Hfetch.
    destruct data; try reflexivity.
    contradiction (Hnot d). reflexivity.
  - intros d m wd temp_v temp_rounded humidity_v speed_v speed
           -> Hmain Htemp Hround Hhum Hwind Hspeed Hnum Hweather.
    rewrite request_branch by assumption. cbv zeta. fold params.
    rewrite Hfetch. unfold WeatherAPI.report, getitem, getitem0, get.
    rewrite Hmain. cbn [and_then]. rewrite Htemp. cbn [and_then].
    rewrite Hround. cbn [and_then]. rewrite Hhum. cbn [and_then].
    rewrite Hwind. cbn [and_then]. rewrite Hspeed. cbn [and_then].
    rewrite Hnum. cbn [and_then]. rewrite Hweather. reflexivity.
Qed.

Lemma malformed_reply_raises_witness :
  "k"%string <> EmptyString /\
  "k"%string <> "YOUR_OPENWEATHER_KEY_HERE"%string /\
  ~ (400 <= 200 < 600)%Z /\
  WeatherAPI.get_weather "k" (WeatherAPI.answering_world (JList []))
                         34.0522 (-118.2437) =
  (Raise (Builtin TypeError),
   [WeatherAPI.Requested
      WeatherAPI.base_url
      {| WeatherAPI.param_lat := 34.0522; WeatherAPI.param_lon := -118.2437;
         WeatherAPI.param_appid := "k"; WeatherAPI.param_units := "metric" |}
      5]).
Proof.
  split; [ discriminate | ]. split; [ discriminate | ]. split; [ lia | ].
  apply (malformed_reply_raises
           "k" (WeatherAPI.answering_world (JList [])) 34.0522 (-118.2437)
           200 (JList []));
    [ discriminate | discriminate | lia | reflexivity | ].
  intros d. discriminate.
Defined.

(* ================================================================= *)
(** ** The route [GET /api/weather] *)

(** X22: The query arguments are parsed before anything else: when [float]
    rejects the text of 'lat', or accepts it (or 'lat' is absent) and
    rejects the text of 'lon', the answer is status 500 with the text of a
    [ValueError], and no request is sent, with or without a key. *)
Theorem weather_route_bad_argument (api_key : string) (world : WeatherAPI.World)
        (args : string -> option string) (text : string) :
  (args "lat"%string = Some text /\
   WeatherAPI.float_of_string world text = None) \/
  ((args "lat"%string = None \/
    exists text' x, args "lat"%string = Some text' /\
                    WeatherAPI.float_of_string world text' = Some x) /\
   args "lon"%string = Some text /\
   WeatherAPI.float_of_string world text = None) ->
  App.get_weather api_key world args =
  ({| App.status := 500; App.success := false;
      App.content := inr (App.Str (Builtin ValueError)) |}, []).
Proof.
  intros [[Hlat Hbad] | [Hlat [Hlon Hbad]]].
  - unfold App.get_weather, App.float_arg. rewrite Hlat, Hbad. reflexivity.
  - unfold App.get_weather, App.float_arg.
    destruct Hlat as [Hlat | [text' [x [Hlat Hx]]]].
    + rewrite Hlat, Hlon, Hbad. reflexivity.
    + rewrite Hlat, Hx, Hlon, Hbad. reflexivity.
Qed.

Lemma weather_route_bad_argument_witness :
  ((fun _ : string => Some "north"%string) "lat"%string = Some "north"%string /\
   WeatherAPI.float_of_string WeatherAPI.offline_world "north" = None) /\
  App.get_weather "k" WeatherAPI.offline_world (fun _ => Some "north"%string) =
  ({| App.status := 500; App.success := false;
      App.content := inr (App.Str (Builtin ValueError)) |}, []).
Proof.
  split; [ split; reflexivity | ].
  apply (weather_route_bad_argument
           "k" WeatherAPI.offline_world (fun _ => Some "north"%string) "north").
  left. split; reflexivity.
Defined.

(** X23: The global [WeatherAPI()] of app.py is built without a key, so its key
    is the environment variable.  When that variable is unset, empty or the
    placeholder, a request without 'lat' and 'lon' is answered with status
    200 and the mock report for the point (34.0522, -118.2437), and nothing
    is sent or printed.  An empty key given to the constructor is replaced
    by the environment variable like a missing one. *)
Theorem weather_route_defaults (environ : option string)
        (world : WeatherAPI.World) (args : string -> option string) :
  environ = None \/ environ = Some EmptyString \/
  environ = Some "YOUR_OPENWEATHER_KEY_HERE"%string ->
  args "lat"%string = None -> args "lon"%string = None ->
  App.get_weather (WeatherAPI.init None environ) world args =
  ({| App.status := 200; App.success := true;
      App.content :=
        inl (WeatherAPI._get_mock_weather world 34.0522 (-118.2437)) |}, []) /\
  WeatherAPI.init (Some EmptyString) environ = WeatherAPI.init None environ.
Proof.
  intros Henv Hlat Hlon. split; [ | reflexivity ].
  unfold App.get_weather, App.float_arg. rewrite Hlat, Hlon.
  rewrite mock_branch; [ reflexivity | ].
  destruct Henv as [-> | [-> | ->]];
    [ left | left | right ]; reflexivity.
Qed.

Lemma weather_route_defaults_witness :
  (@None string = None \/ @None string = Some EmptyString \/
   @None string = Some "YOUR_OPENWEATHER_KEY_HERE"%string) /\
  App.get_weather (WeatherAPI.init None None) WeatherAPI.offline_world
                  (fun _ => None) =
  ({| App.status := 200; App.success := true;
      App.content :=
        inl (WeatherAPI._get_mock_weather WeatherAPI.offline_world
                                          34.0522 (-118.2437)) |}, []).
Proof.
  split; [ left; reflexivity | ].
  apply (proj1 (weather_route_defaults
                  None WeatherAPI.offline_world (fun _ => None)
                  (or_introl eq_refl) eq_refl eq_refl)).
Defined.
